(** * yTwist: a shallow embedding of the deformer node of RandomPoints.cpp

    The plug-in source is a single translation unit,
    [RandomCircle/src/RandomPoints.cpp].  It defines the dependency-graph node
    [yTwist] with two behaviours of its own: [yTwist::initialize], which
    registers the attribute "angle", and [yTwist::deform], which twists the
    points of a geometry around the y axis.

    The host objects the node borrows (status codes, points, the geometry
    iterator, the data block, the numeric-attribute function set) are declared
    by the host SDK and not by this repository; they are modelled here by the
    part of their interface the source calls.

    The arithmetic of the C++ type [double] is kept abstract in a class
    [DoubleOps], so that everything proved about control flow, error handling
    and framing holds for any arithmetic.  The instance the code runs on is
    IEEE binary64, given by the primitive floats, with the libm functions
    [cos] and [sin] as parameters; what depends on rounding, on the signed
    zeros, on the infinities or on the NaN is proved for that instance. *)

From Stdlib Require Import String Ascii Floats ZArith Bool.
From stdpp Require Import base list.
From Equations.Prop Require Import Equations Logic.

Set Default Proof Using "Type".

(** ** Arithmetic of [double] *)

(** The operations [yTwist] applies to values of type [double]: the literal
    [0.0], [*], [+], [-], the comparison [!=] and the libm functions [cos] and
    [sin]. *)
Class DoubleOps (D : Type) := {
  d_zero : D;
  d_mul : D -> D -> D;
  d_add : D -> D -> D;
  d_sub : D -> D -> D;
  d_neq : D -> D -> bool;
  d_cos : D -> D;
  d_sin : D -> D
}.

Declare Scope double_scope.
Delimit Scope double_scope with dbl.
Notation "a * b" := (d_mul a b) : double_scope.
Notation "a + b" := (d_add a b) : double_scope.
Notation "a - b" := (d_sub a b) : double_scope.
Notation "a != b" := (d_neq a b) (at level 70, no associativity) : double_scope.

(** IEEE binary64, round to nearest even.  [cos] and [sin] come from the C
    library and are parameters of the instance.  [a != b] is the negation of
    the IEEE equality, so it holds as soon as one side is a NaN. *)
Definition float_ops (libm_cos libm_sin : float -> float) : DoubleOps float := {|
  d_zero := PrimFloat.zero;
  d_mul := PrimFloat.mul;
  d_add := PrimFloat.add;
  d_sub := PrimFloat.sub;
  d_neq := fun a b => negb (PrimFloat.eqb a b);
  d_cos := libm_cos;
  d_sin := libm_sin
|}.

(** ** Host objects *)

(** [MStatus]: the status code of a host call.  The source names [kSuccess]
    and [kFailure]; the remaining codes are the other values of the host's
    enumeration. *)
Inductive MStatus : Set :=
  | kSuccess
  | kFailure
  | kInsufficientMemory
  | kInvalidParameter
  | kLicenseFailure
  | kUnknownParameter
  | kNotImplemented
  | kNotFound
  | kEndOfFile.

#[export] Instance MStatus_eq_dec : EqDecision MStatus.
Proof. solve_decision. Defined.

(** [MObject]: a handle to a host object; two handles with the same number
    denote the same object. *)
Definition MObject : Set := nat.

(** [MPoint]: a point in homogeneous coordinates. *)
Module MPoint.
Record t (D : Type) : Type := mk { x : D; y : D; z : D; w : D }.
Arguments mk {D} _ _ _ _.
Arguments x {D} _.
Arguments y {D} _.
Arguments z {D} _.
Arguments w {D} _.

(** The assignments [pt.x = v] and [pt.z = v]. *)
Definition set_x {D} (v : D) (pt : t D) : t D := mk v (y pt) (z pt) (w pt).
Definition set_z {D} (v : D) (pt : t D) : t D := mk (x pt) (y pt) v (w pt).
End MPoint.

(** [MItGeometry]: a cursor over the points of the geometry being deformed. *)
Module MItGeometry.
Record t (D : Type) : Type := mk { points : list (MPoint.t D); index : nat }.
Arguments mk {D} _ _.
Arguments points {D} _.
Arguments index {D} _.

Section Ops.
Context {D : Type}.

Definition isDone (iter : t D) : bool :=
  bool_decide (length (points iter) <= index iter).

(** The point under the cursor; there is none once the cursor is past the
    end. *)
Definition position (iter : t D) : option (MPoint.t D) :=
  points iter !! index iter.

Definition setPosition (pt : MPoint.t D) (iter : t D) : t D :=
  mk (<[index iter := pt]> (points iter)) (index iter).

Definition next (iter : t D) : t D :=
  mk (points iter) (S (index iter)).

(** Number of points from the cursor to the end. *)
Definition remaining (iter : t D) : nat :=
  length (points iter) - index iter.
End Ops.
End MItGeometry.

(** [MDataHandle] and [MDataBlock]: the values of the node's attributes for
    one evaluation.  [inputValue] yields a handle together with the status the
    host reports through the [ReturnStatus] argument.  [asFloat] yields a C
    [float]; the source uses it only as an operand of a [double] product, so
    the model holds its value after the promotion to [double]. *)
Module MDataHandle.
Record t (D : Type) : Type := mk { asDouble : D; asFloat : D }.
Arguments mk {D} _ _.
Arguments asDouble {D} _.
Arguments asFloat {D} _.
End MDataHandle.

Module MDataBlock.
Record t (D : Type) : Type :=
  mk { inputValue : MObject -> MDataHandle.t D * MStatus }.
Arguments mk {D} _.
Arguments inputValue {D} _ _.
End MDataBlock.

(** The stream [cerr]: the messages written so far, oldest first. *)
Definition ostream : Set := list string.

Definition newline : string := String (ascii_of_nat 10) EmptyString.

(** [MFnNumericData::Type]: the kind of value a numeric attribute holds.  The
    source names [kDouble]; the others stand for the remaining scalar kinds of
    the host's enumeration. *)
Module MFnNumericData.
Inductive Type_ : Set := kInvalid | kBoolean | kInt | kFloat | kDouble.
End MFnNumericData.

(** The host's side of attribute registration.  An attribute created through
    [MFnNumericAttribute] is an object of the host; an [MObject] is a handle
    to it, so that a change made through the function set is seen through
    every handle to the same object.  [objects] is the store of these objects,
    the handle [n] denoting the [n]-th one; [attributes] are the handles added
    to the node class, in order; [affects] is the dependency relation declared
    between attributes, in order. *)
Module DG.
Record NumericAttribute (D : Type) : Type := mkAttr {
  fullName : string;
  briefName : string;
  unitType : MFnNumericData.Type_;
  defaultValue : D;
  keyable : bool
}.
Arguments mkAttr {D} _ _ _ _ _.
Arguments fullName {D} _.
Arguments briefName {D} _.
Arguments unitType {D} _.
Arguments defaultValue {D} _.
Arguments keyable {D} _.

Inductive Object (D : Type) : Type :=
  | Numeric (a : NumericAttribute D)
  | Other.
Arguments Numeric {D} _.
Arguments Other {D}.

Record t (D : Type) : Type := mk {
  objects : list (Object D);
  attributes : list MObject;
  affects : list (MObject * MObject)
}.
Arguments mk {D} _ _ _.
Arguments objects {D} _.
Arguments attributes {D} _.
Arguments affects {D} _.

Section Ops.
Context {D : Type}.

Definition set_default (v : D) (o : Object D) : Object D :=
  match o with
  | Numeric a =>
      Numeric (mkAttr (fullName a) (briefName a) (unitType a) v (keyable a))
  | Other => Other
  end.

Definition set_keyable (b : bool) (o : Object D) : Object D :=
  match o with
  | Numeric a =>
      Numeric (mkAttr (fullName a) (briefName a) (unitType a) (defaultValue a) b)
  | Other => Other
  end.

(** [MPxNode::addAttribute] and [MPxNode::attributeAffects].  Both report a
    status, which the source discards. *)
Definition addAttribute (attr : MObject) (dg : t D) : t D :=
  mk (objects dg) (attributes dg ++ [attr]) (affects dg).

Definition attributeAffects (whenChanges isAffected : MObject) (dg : t D) : t D :=
  mk (objects dg) (attributes dg) (affects dg ++ [(whenChanges, isAffected)]).
End Ops.
End DG.

(** [MFnNumericAttribute]: the function set.  Its state is the handle of the
    object it is attached to, if any. *)
Module MFnNumericAttribute.
Definition t : Set := option MObject.

Section Ops.
Context {D : Type} `{DoubleOps D}.

(** The default constructor: attached to nothing. *)
Definition ctor : t := None.

(** [create(fullName, briefName, unitType)]: a new attribute object, with the
    default value [0] of the omitted fourth argument and not keyable; the
    function set is attached to it and its handle is returned. *)
Definition create (full brief : string) (ty : MFnNumericData.Type_)
    (dg : DG.t D) : MObject * t * DG.t D :=
  let h := length (DG.objects dg) in
  let o := DG.Numeric (DG.mkAttr full brief ty d_zero false) in
  (h, Some h, DG.mk (DG.objects dg ++ [o]) (DG.attributes dg) (DG.affects dg)).

Definition setDefault (v : D) (fn : t) (dg : DG.t D) : DG.t D :=
  match fn with
  | Some h =>
      DG.mk (alter (DG.set_default v) h (DG.objects dg))
            (DG.attributes dg) (DG.affects dg)
  | None => dg
  end.

Definition setKeyable (b : bool) (fn : t) (dg : DG.t D) : DG.t D :=
  match fn with
  | Some h =>
      DG.mk (alter (DG.set_keyable b) h (DG.objects dg))
            (DG.attributes dg) (DG.affects dg)
  | None => dg
  end.
End Ops.
End MFnNumericAttribute.

(** ** The node [yTwist] *)

Module yTwist.
Section Node.
Context {D : Type} `{DoubleOps D}.
Local Open Scope double_scope.

(** The static attributes [envelope] and [outputGeom] the class inherits from
    [MPxGeometryFilter]. *)
Variables envelope outputGeom : MObject.

(** What a call of a member function can change: the geometry behind the
    iterator and the stream [cerr]. *)
Record State : Type := mkState { iter : MItGeometry.t D; cerr : ostream }.

(** A function body: it either executes a [return] statement, with the status
    returned, or runs on with a value. *)
Definition Body (A : Type) : Type := State -> (MStatus + A) * State.

Definition ret {A} (a : A) : Body A := fun s => (inr a, s).

Definition bind {A B} (m : Body A) (k : A -> Body B) : Body B :=
  fun s =>
    match m s with
    | (inl status, s') => (inl status, s')
    | (inr a, s') => k a s'
    end.

Notation "m ;; k" := (bind m (fun _ => k))
  (at level 100, right associativity).

(** The statement [return status;]. *)
Definition return_ {A} (status : MStatus) : Body A := fun s => (inl status, s).

(** [cerr << msg]. *)
Definition print (msg : string) : Body unit :=
  fun s => (inr tt, mkState (iter s) (cerr s ++ [msg])).

(** The status a call of the function yields. *)
Definition call (body : Body MStatus) (s : State) : MStatus * State :=
  match body s with
  | (inl status, s') => (status, s')
  | (inr status, s') => (status, s')
  end.

(** The macro [McheckErr(stat, msg)]. *)
Definition McheckErr (stat : MStatus) (msg : string) : Body unit :=
  if bool_decide (kSuccess <> stat) then
    print msg ;;
    return_ kFailure
  else ret tt.

(** The body of the loop of [deform], between [iter.position()] and
    [iter.setPosition(pt)]: the new value of [pt]. *)
Definition twist (magnitude env : D) (pt : MPoint.t D) : MPoint.t D :=
  let ff := magnitude * MPoint.y pt * env in
  if ff != d_zero then
    let cct := d_cos ff in
    let cst := d_sin ff in
    let tt := MPoint.x pt * cct - MPoint.z pt * cst in
    let pt := MPoint.set_z (MPoint.x pt * cst + MPoint.z pt * cct) pt in
    MPoint.set_x tt pt
  else pt.

(** The loop [for (; !iter.isDone(); iter.next())] of [deform].  Each turn
    moves the cursor one point closer to the end.  [position] has a point to
    give whenever [isDone] is false, so the last clause is never reached. *)
Equations deform_loop (magnitude env : D) (it : MItGeometry.t D)
  : MItGeometry.t D by wf (MItGeometry.remaining it) lt :=
deform_loop magnitude env it with inspect (MItGeometry.isDone it) := {
  | exist _ true _ => it
  | exist _ false Hd with MItGeometry.position it := {
    | Some pt =>
        deform_loop magnitude env
          (MItGeometry.next (MItGeometry.setPosition (twist magnitude env pt) it))
    | None => it } }.
Next Obligation.
  intros. unfold MItGeometry.isDone, MItGeometry.remaining in *.
  apply bool_decide_eq_false in Hd.
  simpl. rewrite length_insert. lia.
Qed.

(** The rotation formula of the specification, applied to every point alike:
    [x' = x cos t - z sin t], [z' = x sin t + z cos t] with
    [t = angle * y * envelope]. *)
Definition twist_unconditional (magnitude env : D) (pt : MPoint.t D)
    : MPoint.t D :=
  let theta := magnitude * MPoint.y pt * env in
  MPoint.mk (MPoint.x pt * d_cos theta - MPoint.z pt * d_sin theta)
            (MPoint.y pt)
            (MPoint.x pt * d_sin theta + MPoint.z pt * d_cos theta)
            (MPoint.w pt).

(** The loop as a statement of the body: it acts on the iterator only. *)
Definition for_each_point (magnitude env : D) : Body unit :=
  fun s => (inr tt, mkState (deform_loop magnitude env (iter s)) (cerr s)).

(** [yTwist::deform].  [angle] is the static member the class declares. *)
Definition deform_body (angle : MObject) (block : MDataBlock.t D) : Body MStatus :=
  let status := kSuccess in
  let '(angleData, status) := MDataBlock.inputValue block angle in
  McheckErr status ("Error getting angle data handle" ++ newline) ;;
  let magnitude := MDataHandle.asDouble angleData in
  let '(envData, status) := MDataBlock.inputValue block envelope in
  McheckErr status ("Error getting envelope data handle" ++ newline) ;;
  let env := MDataHandle.asFloat envData in
  for_each_point magnitude env ;;
  ret status.

Definition deform (angle : MObject) (block : MDataBlock.t D)
    (it : MItGeometry.t D) (err : ostream) : MStatus * State :=
  call (deform_body angle block) (mkState it err).

(** [yTwist::initialize]: the status returned, the value assigned to the
    static member [angle], and the host's registration state. *)
Definition initialize (dg : DG.t D) : MStatus * MObject * DG.t D :=
  let nAttr := MFnNumericAttribute.ctor in
  let '(angle, nAttr, dg) :=
    MFnNumericAttribute.create "angle" "fa" MFnNumericData.kDouble dg in
  let dg := MFnNumericAttribute.setDefault d_zero nAttr dg in
  let dg := MFnNumericAttribute.setKeyable true nAttr dg in
  let dg := DG.addAttribute angle dg in
  let dg := DG.attributeAffects angle outputGeom dg in
  (kSuccess, angle, dg).

End Node.

Arguments mkState {D} _ _.
Arguments iter {D} _.
Arguments cerr {D} _.

(** ** Sample data

    A data block that answers the read of one attribute with one status and
    one value, and the read of any other attribute with another status and
    value; and a small geometry. *)

Definition sample_angle : MObject := 0.
Definition sample_envelope : MObject := 1.

Definition sample_block {D : Type} (magnitude env : D)
    (angle_status envelope_status : MStatus) : MDataBlock.t D :=
  MDataBlock.mk (fun attr =>
    if decide (attr = sample_angle)
    then (MDataHandle.mk magnitude magnitude, angle_status)
    else (MDataHandle.mk env env, envelope_status)).

Definition sample_points_binary64 : list (MPoint.t float) :=
  [MPoint.mk 1 2 3 1; MPoint.mk 4 0 6 1; MPoint.mk 0 (-1) 5 1]%float.

(** Two points with [y] a zero, of either sign. *)
Definition sample_flat_points_binary64 : list (MPoint.t float) :=
  [MPoint.mk 4 0 6 1; MPoint.mk 1 (-0) 2 1]%float.

(** A stand-in for [cos] and [sin] where a run on binary64 needs some
    function: what is proved for binary64 holds for every choice. *)
Definition sample_libm (a : float) : float := a.

(** The values of [cos] and [sin] of the C library that the runs below need:
    at a zero, [cos] is [1] and [sin] is the zero itself; at [4.0] they are
    the doubles nearest to the real cosine and sine of 4; at the NaN they
    are the NaN.  No run asks for another argument; the table answers the
    NaN there. *)
Definition cos_4 : float := (-0x1.4eaa606db24c1p-1)%float.
Definition sin_4 : float := (-0x1.837b9dddc1eaep-1)%float.

Definition libm_cos_table (a : float) : float :=
  if (a =? 0)%float then 1%float
  else if (a =? 4)%float then cos_4 else nan.

Definition libm_sin_table (a : float) : float :=
  if (a =? 0)%float then a
  else if (a =? 4)%float then sin_4 else nan.

(** What it takes for the rotation formula to give a point back at an angle
    that is a zero, on binary64: [cos] returns [1] and [sin] a zero there,
    [x] and [z] are finite, and neither is [-0]. *)
Definition formula_fixes (libm_cos libm_sin : float -> float)
    (magnitude env : float) (pt : MPoint.t float) : Prop :=
  let ff := (magnitude * MPoint.y pt * env)%float in
  libm_cos ff = 1%float
  /\ (libm_sin ff =? 0)%float = true
  /\ is_finite (MPoint.x pt) = true
  /\ is_finite (MPoint.z pt) = true
  /\ MPoint.x pt <> neg_zero
  /\ MPoint.z pt <> neg_zero.

(** ** Proofs *)

Section Generic.
Context {D : Type} `{DoubleOps D}.
Local Open Scope double_scope.

Variables envelope outputGeom : MObject.

(** *** The loop *)

Lemma position_not_done (it : MItGeometry.t D) :
  MItGeometry.isDone it = false -> is_Some (MItGeometry.position it).
Proof.
  unfold MItGeometry.isDone, MItGeometry.position. intros Hd.
  apply bool_decide_eq_false in Hd. apply lookup_lt_is_Some. lia.
Qed.

Lemma deform_loop_done (magnitude env : D) (it : MItGeometry.t D) :
  MItGeometry.isDone it = true -> deform_loop magnitude env it = it.
Proof.
  intros Hd. funelim (deform_loop magnitude env it); congruence.
Qed.

Lemma deform_loop_step (magnitude env : D) (it : MItGeometry.t D)
    (pt : MPoint.t D) :
  MItGeometry.position it = Some pt ->
  deform_loop magnitude env it =
  deform_loop magnitude env
    (MItGeometry.next (MItGeometry.setPosition (twist magnitude env pt) it)).
Proof.
  intros Hp. funelim (deform_loop magnitude env it).
  - exfalso.
    unfold MItGeometry.isDone, MItGeometry.position in *.
    match goal with E : bool_decide _ = true |- _ =>
      pose proof (bool_decide_eq_true_1 _ E)
    end.
    apply lookup_lt_Some in Hp. lia.
  - match goal with E : MItGeometry.position _ = Some ?q |- _ =>
      replace pt with q by congruence
    end.
    reflexivity.
  - congruence.
Qed.

(** The loop visits the points from the cursor to the end, in order, and
    replaces each by its image under [twist]; the points before the cursor
    are left as they are, and the cursor ends past the last point. *)
Lemma deform_loop_spec (magnitude env : D) (it : MItGeometry.t D) :
  deform_loop magnitude env it =
  MItGeometry.mk
    (take (MItGeometry.index it) (MItGeometry.points it)
     ++ map (twist magnitude env)
            (drop (MItGeometry.index it) (MItGeometry.points it)))
    (MItGeometry.index it `max` length (MItGeometry.points it)).
Proof.
  remember (MItGeometry.remaining it) as n eqn:Hn.
  revert it Hn. induction n as [n IH] using lt_wf_ind. intros [pts i] Hn.
  unfold MItGeometry.remaining in Hn. simpl in *.
  destruct (pts !! i) as [pt|] eqn:Hp.
  - rewrite (deform_loop_step magnitude env (MItGeometry.mk pts i) pt Hp).
    pose proof (lookup_lt_Some _ _ _ Hp) as Hlt.
    unfold MItGeometry.next, MItGeometry.setPosition. simpl.
    erewrite (IH (length pts - S i)%nat);
      [| lia | unfold MItGeometry.remaining; simpl; rewrite length_insert; reflexivity].
    simpl. rewrite length_insert.
    rewrite (take_S_r _ _ (twist magnitude env pt))
      by (apply list_lookup_insert_eq; exact Hlt).
    rewrite take_insert_ge by lia.
    rewrite drop_insert_lt by lia.
    rewrite (drop_S _ _ _ Hp). simpl. rewrite <- app_assoc. simpl.
    f_equal. lia.
  - apply lookup_ge_None in Hp.
    rewrite deform_loop_done by (apply bool_decide_eq_true; simpl; lia).
    rewrite take_ge, drop_ge by lia. simpl. rewrite app_nil_r.
    f_equal. lia.
Qed.

(** *** The per-point transform *)

Lemma twist_y (magnitude env : D) (pt : MPoint.t D) :
  MPoint.y (twist magnitude env pt) = MPoint.y pt.
Proof. unfold twist. simpl. destruct (_ != _); reflexivity. Qed.

Lemma twist_w (magnitude env : D) (pt : MPoint.t D) :
  MPoint.w (twist magnitude env pt) = MPoint.w pt.
Proof. unfold twist. simpl. destruct (_ != _); reflexivity. Qed.

Lemma map_twist_y (magnitude env : D) (pts : list (MPoint.t D)) :
  map MPoint.y (map (twist magnitude env) pts) = map MPoint.y pts.
Proof.
  induction pts as [|pt pts IH]; simpl; [reflexivity|].
  rewrite twist_y, IH. reflexivity.
Qed.

(** The branch not taken: the point is written back as it was read. *)
Lemma twist_fast_path (magnitude env : D) (pt : MPoint.t D) :
  (magnitude * MPoint.y pt * env != d_zero) = false ->
  twist magnitude env pt = pt.
Proof. intros Hz. unfold twist. simpl. rewrite Hz. reflexivity. Qed.

(** The branch taken: the point is rotated. *)
Lemma twist_rotation (magnitude env : D) (pt : MPoint.t D) :
  (magnitude * MPoint.y pt * env != d_zero) = true ->
  twist magnitude env pt = twist_unconditional magnitude env pt.
Proof. intros Hz. unfold twist. simpl. rewrite Hz. reflexivity. Qed.

(** *** The three ways through [deform] *)

Lemma McheckErr_success (msg : string) (s : @State D) :
  McheckErr kSuccess msg s = (inr tt, s).
Proof. reflexivity. Qed.

Lemma McheckErr_error (stat : MStatus) (msg : string) (s : @State D) :
  stat <> kSuccess ->
  McheckErr stat msg s = (inl kFailure, mkState (iter s) (cerr s ++ [msg])).
Proof.
  intros Hs. unfold McheckErr.
  rewrite bool_decide_eq_true_2 by congruence. reflexivity.
Qed.

Lemma deform_angle_error (angle : MObject) (block : MDataBlock.t D)
    (it : MItGeometry.t D) (err : ostream) :
  (MDataBlock.inputValue block angle).2 <> kSuccess ->
  deform envelope angle block it err =
  (kFailure,
   mkState it (err ++ [("Error getting angle data handle" ++ newline)%string])).
Proof.
  intros Ha. unfold deform, deform_body, call.
  destruct (MDataBlock.inputValue block angle) as [angleData aS].
  destruct (MDataBlock.inputValue block envelope) as [envData eS].
  unfold bind at 1. rewrite McheckErr_error by exact Ha. reflexivity.
Qed.

Lemma deform_envelope_error (angle : MObject) (block : MDataBlock.t D)
    (it : MItGeometry.t D) (err : ostream) :
  (MDataBlock.inputValue block angle).2 = kSuccess ->
  (MDataBlock.inputValue block envelope).2 <> kSuccess ->
  deform envelope angle block it err =
  (kFailure,
   mkState it (err ++ [("Error getting envelope data handle" ++ newline)%string])).
Proof.
  intros Ha He. unfold deform, deform_body, call.
  destruct (MDataBlock.inputValue block angle) as [angleData aS].
  destruct (MDataBlock.inputValue block envelope) as [envData eS].
  simpl in Ha, He. subst aS.
  unfold bind at 1. rewrite McheckErr_success.
  unfold bind at 1. rewrite McheckErr_error by exact He. reflexivity.
Qed.

Lemma deform_success (angle : MObject) (block : MDataBlock.t D)
    (it : MItGeometry.t D) (err : ostream) :
  (MDataBlock.inputValue block angle).2 = kSuccess ->
  (MDataBlock.inputValue block envelope).2 = kSuccess ->
  deform envelope angle block it err =
  (kSuccess,
   mkState
     (deform_loop
        (MDataHandle.asDouble (MDataBlock.inputValue block angle).1)
        (MDataHandle.asFloat (MDataBlock.inputValue block envelope).1) it)
     err).
Proof.
  intros Ha He. unfold deform, deform_body, call.
  destruct (MDataBlock.inputValue block angle) as [angleData aS].
  destruct (MDataBlock.inputValue block envelope) as [envData eS].
  simpl in Ha, He. subst aS eS. reflexivity.
Qed.

Lemma deform_success_points (angle : MObject) (block : MDataBlock.t D)
    (it : MItGeometry.t D) (err : ostream) :
  (MDataBlock.inputValue block angle).2 = kSuccess ->
  (MDataBlock.inputValue block envelope).2 = kSuccess ->
  deform envelope angle block it err =
  (kSuccess,
   mkState
     (MItGeometry.mk
        (take (MItGeometry.index it) (MItGeometry.points it)
         ++ map (twist (MDataHandle.asDouble (MDataBlock.inputValue block angle).1)
                       (MDataHandle.asFloat (MDataBlock.inputValue block envelope).1))
                (drop (MItGeometry.index it) (MItGeometry.points it)))
        (MItGeometry.index it `max` length (MItGeometry.points it)))
     err).
Proof.
  intros Ha He. rewrite deform_success by assumption.
  rewrite deform_loop_spec. reflexivity.
Qed.

(** Whatever the statuses of the two reads, [deform] takes one of the three
    ways above. *)
Lemma deform_cases (angle : MObject) (block : MDataBlock.t D)
    (it : MItGeometry.t D) (err : ostream) :
  ((MDataBlock.inputValue block angle).2 <> kSuccess
   /\ deform envelope angle block it err =
      (kFailure,
       mkState it (err ++ [("Error getting angle data handle" ++ newline)%string])))
  \/ ((MDataBlock.inputValue block angle).2 = kSuccess
      /\ (MDataBlock.inputValue block envelope).2 <> kSuccess
      /\ deform envelope angle block it err =
         (kFailure,
          mkState it
            (err ++ [("Error getting envelope data handle" ++ newline)%string])))
  \/ ((MDataBlock.inputValue block angle).2 = kSuccess
      /\ (MDataBlock.inputValue block envelope).2 = kSuccess
      /\ deform envelope angle block it err =
         (kSuccess,
          mkState
            (deform_loop
               (MDataHandle.asDouble (MDataBlock.inputValue block angle).1)
               (MDataHandle.asFloat (MDataBlock.inputValue block envelope).1) it)
            err)).
Proof.
  destruct (decide ((MDataBlock.inputValue block angle).2 = kSuccess)) as [Ha|Ha].
  - destruct (decide ((MDataBlock.inputValue block envelope).2 = kSuccess))
      as [He|He].
    + right; right. auto using deform_success.
    + right; left. auto using deform_envelope_error.
  - left. auto using deform_angle_error.
Qed.

(** *** Properties of [deform] that hold for any arithmetic *)

(** C4.  [deform] returns a status other than [kSuccess] exactly when the read
    of the angle handle or the read of the envelope handle reports a status
    other than [kSuccess].  It then has written one message to [cerr], the
    one of the read that failed, and returns [kFailure]; otherwise it returns
    [kSuccess] and has written nothing.  No other status is ever returned. *)
Theorem deform_status (angle : MObject) (block : MDataBlock.t D)
    (it : MItGeometry.t D) (err : ostream) :
  let r := deform envelope angle block it err in
  let angle_status := (MDataBlock.inputValue block angle).2 in
  let envelope_status := (MDataBlock.inputValue block envelope).2 in
  (r.1 <> kSuccess <-> angle_status <> kSuccess \/ envelope_status <> kSuccess)
  /\ ((r.1 = kSuccess /\ cerr r.2 = err)
      \/ (r.1 = kFailure /\ angle_status <> kSuccess
          /\ cerr r.2
             = err ++ [("Error getting angle data handle" ++ newline)%string])
      \/ (r.1 = kFailure /\ angle_status = kSuccess
          /\ cerr r.2
             = err ++ [("Error getting envelope data handle" ++ newline)%string])).
Proof.
  cbv zeta.
  destruct (deform_cases angle block it err)
    as [[Ha ->]|[(Ha & He & ->)|(Ha & He & ->)]]; simpl.
  - split; [split; [tauto | discriminate] | right; left; auto].
  - split; [split; [tauto | discriminate] | right; right; auto].
  - split; [| left; auto].
    split; [congruence | intros [?|?]; congruence].
Qed.

(** C6.  The twist is around the y axis: whatever the data block holds, the
    y coordinates of the points after [deform] are those before it, point by
    point. *)
Theorem deform_preserves_y (angle : MObject) (block : MDataBlock.t D)
    (it : MItGeometry.t D) (err : ostream) :
  map MPoint.y (MItGeometry.points (iter (deform envelope angle block it err).2))
  = map MPoint.y (MItGeometry.points it).
Proof.
  destruct (deform_cases angle block it err)
    as [[_ ->]|[(_ & _ & ->)|(_ & _ & ->)]]; simpl; try reflexivity.
  rewrite deform_loop_spec. simpl.
  rewrite map_app, map_twist_y, <- map_app, take_drop. reflexivity.
Qed.

(** C7.  When both reads succeed, [deform] returns [kSuccess], writes nothing
    to [cerr], and the points from the cursor on are the images, in order, of
    the input points under the one function [twist] of the point, the angle
    value and the envelope value; no value is carried from one point to the
    next. *)
Theorem deform_pointwise (angle : MObject) (block : MDataBlock.t D)
    (it : MItGeometry.t D) (err : ostream) :
  (MDataBlock.inputValue block angle).2 = kSuccess ->
  (MDataBlock.inputValue block envelope).2 = kSuccess ->
  let magnitude := MDataHandle.asDouble (MDataBlock.inputValue block angle).1 in
  let env := MDataHandle.asFloat (MDataBlock.inputValue block envelope).1 in
  deform envelope angle block it err =
  (kSuccess,
   mkState
     (MItGeometry.mk
        (take (MItGeometry.index it) (MItGeometry.points it)
         ++ map (twist magnitude env)
                (drop (MItGeometry.index it) (MItGeometry.points it)))
        (MItGeometry.index it `max` length (MItGeometry.points it)))
     err).
Proof.
  intros Ha He. cbv zeta. apply deform_success_points; assumption.
Qed.

(** C9.  When the read of the angle handle or of the envelope handle fails,
    [deform] returns with the iterator as it received it: no point has been
    written and the cursor has not moved. *)
Theorem deform_error_atomic (angle : MObject) (block : MDataBlock.t D)
    (it : MItGeometry.t D) (err : ostream) :
  (MDataBlock.inputValue block angle).2 <> kSuccess
  \/ (MDataBlock.inputValue block envelope).2 <> kSuccess ->
  iter (deform envelope angle block it err).2 = it.
Proof.
  intros Hfail.
  destruct (deform_cases angle block it err)
    as [[_ ->]|[(_ & _ & ->)|(Ha & He & _)]]; simpl; try reflexivity.
  tauto.
Qed.

(** *** [initialize] *)

Lemma alter_last {A} (f : A -> A) (l : list A) (a : A) :
  alter f (length l) (l ++ [a]) = l ++ [f a].
Proof.
  rewrite alter_app_r_alt by lia. rewrite Nat.sub_diag. reflexivity.
Qed.

(** C8.  [initialize] returns [kSuccess].  It adds one handle to the
    attributes of the node class, the one it assigns to [angle]; the object
    behind it is new, and is a numeric attribute named "angle", of kind
    [kDouble], with default value [0.0], keyable.  It declares one dependency,
    from [angle] to [outputGeom].  The objects that existed before are
    untouched. *)
Theorem initialize_registers_angle (dg : DG.t D) :
  let '(status, angle, dg') := initialize outputGeom dg in
  status = kSuccess
  /\ DG.attributes dg' = DG.attributes dg ++ [angle]
  /\ DG.objects dg' =
     DG.objects dg
     ++ [DG.Numeric (DG.mkAttr "angle" "fa" MFnNumericData.kDouble d_zero true)]
  /\ DG.objects dg' !! angle =
     Some (DG.Numeric (DG.mkAttr "angle" "fa" MFnNumericData.kDouble d_zero true))
  /\ DG.affects dg' = DG.affects dg ++ [(angle, outputGeom)].
Proof.
  unfold initialize, MFnNumericAttribute.create, MFnNumericAttribute.setDefault,
    MFnNumericAttribute.setKeyable, DG.addAttribute, DG.attributeAffects.
  cbn [DG.objects DG.attributes DG.affects].
  rewrite !alter_last. cbn [DG.set_default DG.set_keyable DG.fullName
    DG.briefName DG.unitType DG.defaultValue DG.keyable].
  repeat split.
  rewrite lookup_app_r by lia. rewrite Nat.sub_diag. reflexivity.
Qed.

End Generic.

(** ** What [deform] leaves alone, and what it does to the iterator *)

Section Frame.
Context {D : Type} `{DoubleOps D}.

Variable envelope : MObject.

Lemma take_take_map {A} (f : A -> A) (n : nat) (l : list A) :
  take n (take n l ++ map f (drop n l)) = take n l.
Proof.
  destruct (decide (n <= length l)%nat) as [Hn|Hn].
  - apply take_app_length'. rewrite length_take. lia.
  - rewrite drop_ge by lia. simpl. rewrite app_nil_r, take_take.
    f_equal. lia.
Qed.

Lemma map_twist_w (magnitude env : D) (pts : list (MPoint.t D)) :
  map MPoint.w (map (twist magnitude env) pts) = map MPoint.w pts.
Proof.
  induction pts as [|pt pts IH]; simpl; [reflexivity|].
  rewrite twist_w, IH. reflexivity.
Qed.

Lemma map_fixed {A} (f : A -> A) (l : list A) :
  Forall (fun a => f a = a) l -> map f l = l.
Proof.
  induction 1 as [|a l Ha _ IH]; simpl; [reflexivity|].
  rewrite Ha, IH. reflexivity.
Qed.

(** The loop on an iterator whose remaining points are fixed by [twist]. *)
Lemma deform_loop_fixed (magnitude env : D) (it : MItGeometry.t D) :
  Forall (fun pt => twist magnitude env pt = pt)
    (drop (MItGeometry.index it) (MItGeometry.points it)) ->
  MItGeometry.points (deform_loop magnitude env it) = MItGeometry.points it.
Proof.
  intros Hfix. rewrite deform_loop_spec. simpl.
  rewrite map_fixed by exact Hfix. apply take_drop.
Qed.

Lemma deform_points_fixed (angle : MObject) (block : MDataBlock.t D)
    (it : MItGeometry.t D) (err : ostream) :
  Forall
    (fun pt =>
       twist (MDataHandle.asDouble (MDataBlock.inputValue block angle).1)
             (MDataHandle.asFloat (MDataBlock.inputValue block envelope).1) pt
       = pt)
    (drop (MItGeometry.index it) (MItGeometry.points it)) ->
  MItGeometry.points (iter (deform envelope angle block it err).2)
  = MItGeometry.points it.
Proof.
  intros Hfix.
  destruct (deform_cases envelope angle block it err)
    as [[_ ->]|[(_ & _ & ->)|(_ & _ & ->)]]; simpl; try reflexivity.
  apply deform_loop_fixed. exact Hfix.
Qed.

Lemma deform_loop_isDone (magnitude env : D) (it : MItGeometry.t D) :
  MItGeometry.isDone (deform_loop magnitude env it) = true.
Proof.
  rewrite deform_loop_spec. unfold MItGeometry.isDone. simpl.
  apply bool_decide_eq_true.
  rewrite length_app, length_map, length_take, length_drop. lia.
Qed.

Lemma deform_done (angle : MObject) (block : MDataBlock.t D)
    (it : MItGeometry.t D) (err : ostream) :
  MItGeometry.isDone it = true ->
  iter (deform envelope angle block it err).2 = it.
Proof.
  intros Hd.
  destruct (deform_cases envelope angle block it err)
    as [[_ ->]|[(_ & _ & ->)|(_ & _ & ->)]]; simpl; try reflexivity.
  apply deform_loop_done. exact Hd.
Qed.

Lemma initialize_registers_angle_object (outputGeom : MObject) (dg : DG.t D) :
  DG.objects (initialize outputGeom dg).2 !! (initialize outputGeom dg).1.2
  = Some (DG.Numeric (DG.mkAttr "angle" "fa" MFnNumericData.kDouble d_zero true)).
Proof.
  unfold initialize, MFnNumericAttribute.create, MFnNumericAttribute.setDefault,
    MFnNumericAttribute.setKeyable, DG.addAttribute, DG.attributeAffects.
  cbn [DG.objects DG.attributes DG.affects fst snd].
  rewrite !alter_last.
  rewrite lookup_app_r by lia. rewrite Nat.sub_diag. reflexivity.
Qed.

(** X1.  [deform] neither adds nor removes points, and it starts at the
    cursor it is given: the points before the cursor are not touched. *)
Theorem deform_frame (angle : MObject) (block : MDataBlock.t D)
    (it : MItGeometry.t D) (err : ostream) :
  let it' := iter (deform envelope angle block it err).2 in
  length (MItGeometry.points it') = length (MItGeometry.points it)
  /\ take (MItGeometry.index it) (MItGeometry.points it')
     = take (MItGeometry.index it) (MItGeometry.points it).
Proof.
  cbv zeta.
  destruct (deform_cases envelope angle block it err)
    as [[_ ->]|[(_ & _ & ->)|(_ & _ & ->)]]; simpl; try (split; reflexivity).
  rewrite deform_loop_spec. simpl. split.
  - rewrite length_app, length_map, <- length_app, take_drop. reflexivity.
  - apply take_take_map.
Qed.

(** X2.  The homogeneous coordinate [w] of every point is left as it was. *)
Theorem deform_preserves_w (angle : MObject) (block : MDataBlock.t D)
    (it : MItGeometry.t D) (err : ostream) :
  map MPoint.w (MItGeometry.points (iter (deform envelope angle block it err).2))
  = map MPoint.w (MItGeometry.points it).
Proof.
  destruct (deform_cases envelope angle block it err)
    as [[_ ->]|[(_ & _ & ->)|(_ & _ & ->)]]; simpl; try reflexivity.
  rewrite deform_loop_spec. simpl.
  rewrite map_app, map_twist_w, <- map_app, take_drop. reflexivity.
Qed.

(** X3.  A call that succeeds runs the iterator to its end: [isDone] holds of
    the iterator afterwards. *)
Theorem deform_exhausts_iterator (angle : MObject) (block : MDataBlock.t D)
    (it : MItGeometry.t D) (err : ostream) :
  (MDataBlock.inputValue block angle).2 = kSuccess ->
  (MDataBlock.inputValue block envelope).2 = kSuccess ->
  MItGeometry.isDone (iter (deform envelope angle block it err).2) = true.
Proof.
  intros Ha He. rewrite deform_success by assumption. simpl.
  apply deform_loop_isDone.
Qed.

(** X4.  On an iterator that is already done, an empty geometry included,
    [deform] gives the iterator back as it is, and the status depends on the
    two reads alone: a failing read is still reported. *)
Theorem deform_done_iterator (angle : MObject) (block : MDataBlock.t D)
    (it : MItGeometry.t D) (err : ostream) :
  MItGeometry.isDone it = true ->
  let r := deform envelope angle block it err in
  iter r.2 = it
  /\ (r.1 = kSuccess <->
      (MDataBlock.inputValue block angle).2 = kSuccess
      /\ (MDataBlock.inputValue block envelope).2 = kSuccess).
Proof.
  intros Hd. cbv zeta. split; [apply deform_done; exact Hd|].
  destruct (deform_cases envelope angle block it err)
    as [[Ha ->]|[(Ha & He & ->)|(Ha & He & ->)]]; simpl.
  - split; [discriminate | tauto].
  - split; [discriminate | tauto].
  - tauto.
Qed.

(** X5.  The iterator is not rewound: once a call has succeeded, a further
    call on the iterator it returned changes no point, whatever the values of
    the attributes then are. *)
Theorem deform_again (angle : MObject) (block block' : MDataBlock.t D)
    (it : MItGeometry.t D) (err err' : ostream) :
  (MDataBlock.inputValue block angle).2 = kSuccess ->
  (MDataBlock.inputValue block envelope).2 = kSuccess ->
  let it1 := iter (deform envelope angle block it err).2 in
  iter (deform envelope angle block' it1 err').2 = it1.
Proof.
  intros Ha He. cbv zeta. apply deform_done.
  rewrite deform_success by assumption. simpl. apply deform_loop_isDone.
Qed.

End Frame.

(** ** Binary64

    With the IEEE instance the model computes, and the fast path is decided
    by the IEEE comparison.  [cos] and [sin] stay parameters: nothing below
    depends on what they return. *)

Section Binary64.
Local Open Scope float_scope.

Variables libm_cos libm_sin : float -> float.

Local Abbreviation binary64 := (float_ops libm_cos libm_sin).

(** A finite binary64 number is a zero or has a mantissa and an exponent. *)
Lemma binary64_finite_cases (a : float) :
  is_finite a = true ->
  (exists s, Prim2SF a = S754_zero s)
  \/ (exists s m e, Prim2SF a = S754_finite s m e).
Proof.
  unfold is_finite, is_nan, is_infinity.
  rewrite !FloatAxioms.eqb_spec, abs_spec.
  destruct (Prim2SF a) as [s|s| |s m e]; simpl; try discriminate; eauto.
  destruct s; vm_compute; discriminate.
Qed.

Lemma binary64_zero_cases (a : float) :
  (a =? 0) = true -> exists s, Prim2SF a = S754_zero s.
Proof.
  rewrite FloatAxioms.eqb_spec. change (Prim2SF 0) with (S754_zero false).
  destruct (Prim2SF a) as [s|s| |s m e]; eauto;
    unfold SFeqb, SFcompare; try destruct s; discriminate.
Qed.

(** A zero times a finite number is a zero, on either side. *)
Lemma binary64_zero_mul_finite (a b : float) :
  (a =? 0) = true -> is_finite b = true -> (a * b =? 0) = true.
Proof.
  intros Ha Hb. destruct (binary64_zero_cases a Ha) as [sa Ea].
  rewrite FloatAxioms.eqb_spec, mul_spec, Ea.
  destruct (binary64_finite_cases b Hb) as [[s ->]|(s & m & e & ->)];
    reflexivity.
Qed.

Lemma binary64_finite_mul_zero (a b : float) :
  is_finite a = true -> (b =? 0) = true -> (a * b =? 0) = true.
Proof.
  intros Ha Hb. destruct (binary64_zero_cases b Hb) as [sb Eb].
  rewrite FloatAxioms.eqb_spec, mul_spec, Eb.
  destruct (binary64_finite_cases a Ha) as [[s ->]|(s & m & e & ->)];
    reflexivity.
Qed.

Lemma binary64_zero_finite (a : float) : (a =? 0) = true -> is_finite a = true.
Proof.
  intros Ha. destruct (binary64_zero_cases a Ha) as [s Ea].
  unfold is_finite, is_nan, is_infinity.
  rewrite !FloatAxioms.eqb_spec, abs_spec, Ea. destruct s; reflexivity.
Qed.

(** An angle of [0] or [-0], with a finite [y] and a finite envelope: the
    product is a zero and the point is written back as read. *)
Lemma twist_binary64_angle_zero (magnitude env : float) (pt : MPoint.t float) :
  (magnitude =? 0) = true ->
  is_finite (MPoint.y pt) = true ->
  is_finite env = true ->
  twist (H := binary64) magnitude env pt = pt.
Proof.
  intros Hm Hy He. apply twist_fast_path. simpl.
  rewrite binary64_zero_mul_finite; [reflexivity | | exact He].
  apply binary64_zero_mul_finite; assumption.
Qed.

(** An envelope of [0] or [-0], with a finite product [magnitude * y]. *)
Lemma twist_binary64_envelope_zero (magnitude env : float)
    (pt : MPoint.t float) :
  (env =? 0) = true ->
  is_finite (magnitude * MPoint.y pt) = true ->
  twist (H := binary64) magnitude env pt = pt.
Proof.
  intros He Hp. apply twist_fast_path. simpl.
  rewrite binary64_finite_mul_zero; [reflexivity | exact Hp | exact He].
Qed.

(** Angle [0]: every product [0 * y * env] is [0] or [-0], both equal to
    [0.0], and each point is written back as read. *)
Example deform_binary64_angle_zero :
  deform (H := binary64) sample_envelope sample_angle
    (sample_block 0 1 kSuccess kSuccess)
    (MItGeometry.mk sample_points_binary64 0) []
  = (kSuccess, mkState (MItGeometry.mk sample_points_binary64 3) []).
Proof. vm_compute. reflexivity. Qed.

(** A cursor that starts past the first point leaves that point alone. *)
Example deform_binary64_from_cursor :
  deform (H := binary64) sample_envelope sample_angle
    (sample_block 5 0 kSuccess kSuccess)
    (MItGeometry.mk sample_points_binary64 1) []
  = (kSuccess, mkState (MItGeometry.mk sample_points_binary64 3) []).
Proof. vm_compute. reflexivity. Qed.

(** A point with [y = 0] is on the fast path whatever the angle; the others
    are rotated with the values [cos] and [sin] return. *)
Example deform_loop_binary64 :
  MItGeometry.points
    (deform_loop (H := binary64) 1 1
       (MItGeometry.mk [MPoint.mk 4 0 6 1; MPoint.mk 1 2 3 1] 0))
  = [MPoint.mk 4 0 6 1;
     MPoint.mk (1 * libm_cos 2 - 3 * libm_sin 2) 2
               (1 * libm_sin 2 + 3 * libm_cos 2) 1].
Proof. vm_compute. reflexivity. Qed.

(** A product that underflows is a zero: the point is on the fast path
    although the angle, [y] and the envelope are all different from zero. *)
Example twist_binary64_underflow :
  twist (H := binary64) 0x1p-600 1 (MPoint.mk 1 0x1p-600 3 1)
  = MPoint.mk 1 0x1p-600 3 1.
Proof. vm_compute. reflexivity. Qed.

(** A failing read of the angle: one message, [kFailure], nothing moved. *)
Example deform_binary64_angle_error :
  deform (H := binary64) sample_envelope sample_angle
    (sample_block 5 1 kNotFound kSuccess)
    (MItGeometry.mk sample_points_binary64 0) []
  = (kFailure,
     mkState (MItGeometry.mk sample_points_binary64 0)
       [("Error getting angle data handle" ++ newline)%string]).
Proof. vm_compute. reflexivity. Qed.

(** A failing read of the envelope, after a successful read of the angle. *)
Example deform_binary64_envelope_error :
  deform (H := binary64) sample_envelope sample_angle
    (sample_block 5 1 kSuccess kEndOfFile)
    (MItGeometry.mk sample_points_binary64 0) []
  = (kFailure,
     mkState (MItGeometry.mk sample_points_binary64 0)
       [("Error getting envelope data handle" ++ newline)%string]).
Proof. vm_compute. reflexivity. Qed.

(** [initialize] on a class that already has two attributes. *)
Example initialize_binary64 :
  initialize (H := binary64) 1%nat (DG.mk [DG.Other; DG.Other] [0; 1]%nat [])
  = (kSuccess, 2%nat,
     DG.mk
       [DG.Other; DG.Other;
        DG.Numeric (DG.mkAttr "angle" "fa" MFnNumericData.kDouble 0 true)]
       [0; 1; 2]%nat [(2%nat, 1%nat)]).
Proof. vm_compute. reflexivity. Qed.

(** *** The fast path on binary64 data *)

Lemma binary64_infinity_cases (a : float) :
  is_infinity a = true -> exists s, Prim2SF a = S754_infinity s.
Proof.
  unfold is_infinity. rewrite FloatAxioms.eqb_spec, abs_spec.
  change (Prim2SF infinity) with (S754_infinity false).
  destruct (Prim2SF a) as [s|s| |s m e]; eauto; discriminate.
Qed.

Lemma binary64_nan_intro (a : float) : Prim2SF a = S754_nan -> a = nan.
Proof.
  intros Ha. rewrite <- (SF2Prim_Prim2SF a), Ha. reflexivity.
Qed.

(** A zero times an infinity is the NaN, and the NaN times anything is the
    NaN. *)
Lemma binary64_zero_mul_infinity (a b : float) :
  (a =? 0) = true -> is_infinity b = true -> a * b = nan.
Proof.
  intros Ha Hb. destruct (binary64_zero_cases a Ha) as [sa Ea].
  destruct (binary64_infinity_cases b Hb) as [sb Eb].
  apply binary64_nan_intro. rewrite mul_spec, Ea, Eb. reflexivity.
Qed.

Lemma binary64_nan_mul (b : float) : nan * b = nan.
Proof.
  apply binary64_nan_intro. rewrite mul_spec.
  change (Prim2SF nan) with S754_nan. reflexivity.
Qed.

Lemma twist_binary64_y_zero_fixed (magnitude env : float)
    (pt : MPoint.t float) :
  (MPoint.y pt =? 0) = true ->
  is_finite magnitude = true ->
  is_finite env = true ->
  twist (H := binary64) magnitude env pt = pt.
Proof.
  intros Hy Hm He. apply twist_fast_path. simpl.
  rewrite binary64_zero_mul_finite; [reflexivity | | exact He].
  apply binary64_finite_mul_zero; assumption.
Qed.

(** X12.  On binary64, with any [cos] and [sin]: when the angle is [0] or
    [-0], the envelope is finite and the y coordinates of the points from the
    cursor on are finite, [deform] leaves every point exactly as it was. *)
Theorem binary64_zero_angle_identity (angle envelope : MObject)
    (block : MDataBlock.t float) (it : MItGeometry.t float) (err : ostream) :
  (MDataHandle.asDouble (MDataBlock.inputValue block angle).1 =? 0) = true ->
  is_finite (MDataHandle.asFloat (MDataBlock.inputValue block envelope).1)
  = true ->
  Forall (fun pt => is_finite (MPoint.y pt) = true)
    (drop (MItGeometry.index it) (MItGeometry.points it)) ->
  MItGeometry.points
    (iter (deform (H := binary64) envelope angle block it err).2)
  = MItGeometry.points it.
Proof.
  intros Hz He Hy. apply deform_points_fixed.
  eapply Forall_impl; [exact Hy|].
  intros pt Hpt. apply twist_binary64_angle_zero; assumption.
Qed.

(** X13.  On binary64, with any [cos] and [sin]: when the envelope is [0] or
    [-0] and the product of the angle and the y coordinate is finite for the
    points from the cursor on, [deform] leaves every point exactly as it
    was. *)
Theorem binary64_zero_envelope_identity (angle envelope : MObject)
    (block : MDataBlock.t float) (it : MItGeometry.t float) (err : ostream) :
  (MDataHandle.asFloat (MDataBlock.inputValue block envelope).1 =? 0) = true ->
  Forall
    (fun pt =>
       is_finite
         (MDataHandle.asDouble (MDataBlock.inputValue block angle).1
          * MPoint.y pt) = true)
    (drop (MItGeometry.index it) (MItGeometry.points it)) ->
  MItGeometry.points
    (iter (deform (H := binary64) envelope angle block it err).2)
  = MItGeometry.points it.
Proof.
  intros Hz Hp. apply deform_points_fixed.
  eapply Forall_impl; [exact Hp|].
  intros pt Hpt. apply twist_binary64_envelope_zero; assumption.
Qed.

(** X14.  On binary64, with any [cos] and [sin]: a geometry whose points
    from the cursor on have [y] equal to [0] or [-0] is left exactly as it
    was, for every finite angle and finite envelope. *)
Theorem binary64_zero_y_identity (angle envelope : MObject)
    (block : MDataBlock.t float) (it : MItGeometry.t float) (err : ostream) :
  is_finite (MDataHandle.asDouble (MDataBlock.inputValue block angle).1)
  = true ->
  is_finite (MDataHandle.asFloat (MDataBlock.inputValue block envelope).1)
  = true ->
  Forall (fun pt => (MPoint.y pt =? 0) = true)
    (drop (MItGeometry.index it) (MItGeometry.points it)) ->
  MItGeometry.points
    (iter (deform (H := binary64) envelope angle block it err).2)
  = MItGeometry.points it.
Proof.
  intros Hm He Hy. apply deform_points_fixed.
  eapply Forall_impl; [exact Hy|].
  intros pt Hpt. apply twist_binary64_y_zero_fixed; assumption.
Qed.

(** X15.  On binary64 the test [ff != 0.0] also holds of the NaN.  With an
    angle of [0] or [-0] and a point whose [y] is infinite the product is the
    NaN, so the point is not on the fast path: its [x] and [z] are computed
    by the rotation, from what [cos] and [sin] return at the NaN. *)
Theorem binary64_nan_takes_rotation (magnitude env : float) (pt : MPoint.t float) :
  (magnitude =? 0) = true ->
  is_infinity (MPoint.y pt) = true ->
  twist (H := binary64) magnitude env pt
  = MPoint.mk (MPoint.x pt * libm_cos nan - MPoint.z pt * libm_sin nan)
              (MPoint.y pt)
              (MPoint.x pt * libm_sin nan + MPoint.z pt * libm_cos nan)
              (MPoint.w pt).
Proof.
  intros Hm Hy.
  assert (Hff : magnitude * MPoint.y pt * env = nan).
  { rewrite (binary64_zero_mul_infinity _ _ Hm Hy). apply binary64_nan_mul. }
  rewrite twist_rotation.
  - unfold twist_unconditional. simpl. rewrite Hff. reflexivity.
  - simpl. rewrite Hff. reflexivity.
Qed.

(** *** Products with [1] and sums with a zero *)

Lemma binary64_inj (a b : float) : Prim2SF a = Prim2SF b -> a = b.
Proof.
  intros E.
  rewrite <- (SF2Prim_Prim2SF a), <- (SF2Prim_Prim2SF b), E. reflexivity.
Qed.

Lemma binary64_digits_iter (m : positive) (n : nat) :
  Zpos (digits2_pos (Nat.iter n xO m))
  = (Zpos (digits2_pos m) + Z.of_nat n)%Z.
Proof.
  induction n as [|n IH]; [simpl; lia|].
  cbn [Nat.iter nat_rect digits2_pos]. rewrite Pos2Z.inj_succ.
  unfold Nat.iter in IH. rewrite IH. lia.
Qed.

Lemma binary64_digits_shift (m : positive) :
  Zpos (digits2_pos (Pos.mul 4503599627370496 m))
  = (Zpos (digits2_pos m) + 52)%Z.
Proof.
  change (Pos.mul 4503599627370496 m) with (Nat.iter 52 xO m).
  rewrite binary64_digits_iter. reflexivity.
Qed.

Lemma binary64_shr_52 (m : positive) :
  SpecFloat.iter_pos shr_1 52
    {| shr_m := Zpos (Pos.mul 4503599627370496 m);
       shr_r := false; shr_s := false |}
  = {| shr_m := Zpos m; shr_r := false; shr_s := false |}.
Proof. reflexivity. Qed.

(** Rounding the exact product of a binary64 number with [1]: the mantissa
    comes with 52 more bits, all zero, which the shift takes away again. *)
Lemma binary64_round_mul_one (s : bool) (m : positive) (e : Z) :
  bounded prec emax m e = true ->
  binary_round_aux prec emax s (Zpos (Pos.mul m 4503599627370496))
    (e + -52) loc_Exact
  = S754_finite s m e.
Proof.
  intros Hb. apply andb_prop in Hb. destruct Hb as [Hc He].
  unfold canonical_mantissa in Hc. apply Z.eqb_eq in Hc.
  rewrite Pos.mul_comm.
  unfold binary_round_aux, shr_fexp. unfold Zdigits2 at 1.
  rewrite binary64_digits_shift.
  replace (Z.pos (digits2_pos m) + 52 + (e + -52))%Z
    with (Z.pos (digits2_pos m) + e)%Z by lia.
  rewrite Hc.
  replace (e - (e + -52))%Z with 52%Z by lia.
  cbn [shr shr_record_of_loc]. rewrite binary64_shr_52.
  cbn [shr_m shr_r shr_s loc_of_shr_record round_nearest_even].
  replace (e + -52 + 52)%Z with e by lia.
  cbn [Zdigits2]. rewrite Hc, Z.sub_diag. cbn [shr shr_m].
  rewrite He. reflexivity.
Qed.

Lemma binary64_mul_one (a : float) : a * 1 = a.
Proof.
  apply binary64_inj. rewrite mul_spec.
  change (Prim2SF 1) with (S754_finite false 4503599627370496 (-52)).
  pose proof (Prim2SF_valid a) as Hv.
  destruct (Prim2SF a) as [s|s| |s m e]; simpl in Hv.
  - destruct s; reflexivity.
  - destruct s; reflexivity.
  - reflexivity.
  - unfold SF64mul, SFmul. rewrite xorb_false_r.
    apply binary64_round_mul_one. exact Hv.
Qed.

Lemma binary64_not_neg_zero (a : float) (s : bool) :
  a <> neg_zero -> Prim2SF a = S754_zero s -> s = false.
Proof.
  intros Hn Ea. destruct s; [|reflexivity].
  exfalso. apply Hn. apply binary64_inj. rewrite Ea. reflexivity.
Qed.

(** Taking a zero away from a number that is not [-0] gives the number. *)
Lemma binary64_sub_zero (a b : float) :
  (b =? 0) = true -> a <> neg_zero -> a - b = a.
Proof.
  intros Hb Ha. destruct (binary64_zero_cases b Hb) as [sb Eb].
  apply binary64_inj. rewrite sub_spec, Eb.
  destruct (Prim2SF a) as [sa|sa| |sa ma ea] eqn:Ea; try reflexivity.
  rewrite (binary64_not_neg_zero a sa Ha Ea). destruct sb; reflexivity.
Qed.

(** Adding a zero to a number that is not [-0] gives the number. *)
Lemma binary64_zero_add (a b : float) :
  (a =? 0) = true -> b <> neg_zero -> a + b = b.
Proof.
  intros Ha Hb. destruct (binary64_zero_cases a Ha) as [sa Ea].
  apply binary64_inj. rewrite add_spec, Ea.
  destruct (Prim2SF b) as [sb|sb| |sb mb eb] eqn:Eb; try reflexivity.
  rewrite (binary64_not_neg_zero b sb Hb Eb). destruct sa; reflexivity.
Qed.

Lemma twist_unconditional_binary64_fixed (magnitude env : float)
    (pt : MPoint.t float) :
  formula_fixes libm_cos libm_sin magnitude env pt ->
  twist_unconditional (H := binary64) magnitude env pt = pt.
Proof.
  intros (Hc & Hs & Hx & Hz & Hxn & Hzn).
  unfold twist_unconditional. simpl. rewrite Hc, !binary64_mul_one.
  rewrite binary64_sub_zero;
    [| apply binary64_finite_mul_zero; assumption | exact Hxn].
  rewrite binary64_zero_add;
    [| apply binary64_finite_mul_zero; assumption | exact Hzn].
  destruct pt; reflexivity.
Qed.

Lemma twist_binary64_skip (magnitude env : float) (pt : MPoint.t float) :
  (magnitude * MPoint.y pt * env =? 0) = true ->
  twist (H := binary64) magnitude env pt = pt.
Proof.
  intros Hz. apply twist_fast_path. simpl. unfold zero.
  rewrite Hz. reflexivity.
Qed.

Lemma twist_binary64_rotate (magnitude env : float) (pt : MPoint.t float) :
  (magnitude * MPoint.y pt * env =? 0) = false ->
  twist (H := binary64) magnitude env pt
  = twist_unconditional (H := binary64) magnitude env pt.
Proof.
  intros Hz. apply twist_rotation. simpl. unfold zero.
  rewrite Hz. reflexivity.
Qed.

Lemma twist_binary64_formula (magnitude env : float) (pt : MPoint.t float) :
  (magnitude * MPoint.y pt * env =? 0) = false
  \/ formula_fixes libm_cos libm_sin magnitude env pt ->
  twist (H := binary64) magnitude env pt
  = twist_unconditional (H := binary64) magnitude env pt.
Proof.
  intros Hcond.
  destruct (magnitude * MPoint.y pt * env =? 0) eqn:Hz.
  - destruct Hcond as [Hf|Hfix]; [discriminate|].
    rewrite twist_binary64_skip by exact Hz.
    symmetry. apply twist_unconditional_binary64_fixed. exact Hfix.
  - apply twist_binary64_rotate. exact Hz.
Qed.

Lemma Forall2_map_self {A} (P : A -> A -> Prop) (f : A -> A) (l : list A) :
  (forall a, P a (f a)) -> Forall2 P l (map f l).
Proof. intros Hf. induction l; simpl; constructor; auto. Qed.

Lemma drop_take_app {A} (n : nat) (l k : list A) :
  length k = length (drop n l) -> drop n (take n l ++ k) = k.
Proof.
  intros Hk. destruct (decide (n <= length l)%nat) as [Hn|Hn].
  - apply drop_app_length'. rewrite length_take. lia.
  - rewrite length_drop in Hk. destruct k; [|simpl in Hk; lia].
    rewrite app_nil_r, take_ge by lia. apply drop_ge. lia.
Qed.

(** *** The rotation, the identity and the radius on binary64 *)

(** C1, as amended.  When both reads succeed, every point from the cursor on
    is treated by the value [theta = magnitude * y * env] computed in
    binary64.  If [theta] compares equal to [0.0] the point is written back
    as it was read.  If it does not, the NaN included, the new [x] and [z]
    are [x * cos theta - z * sin theta] and [x * sin theta + z * cos theta],
    computed in binary64 with the library's [cos] and [sin]; the same two
    equations hold of a point written back as read when [formula_fixes]
    holds of it. *)
Theorem binary64_deform_rotation (angle envelope : MObject)
    (block : MDataBlock.t float) (it : MItGeometry.t float) (err : ostream) :
  (MDataBlock.inputValue block angle).2 = kSuccess ->
  (MDataBlock.inputValue block envelope).2 = kSuccess ->
  let magnitude := MDataHandle.asDouble (MDataBlock.inputValue block angle).1 in
  let env := MDataHandle.asFloat (MDataBlock.inputValue block envelope).1 in
  Forall2
    (fun p p' =>
       let theta := magnitude * MPoint.y p * env in
       ((theta =? 0) = true -> p' = p)
       /\ ((theta =? 0) = false \/ formula_fixes libm_cos libm_sin magnitude env p ->
           MPoint.x p'
           = MPoint.x p * libm_cos theta - MPoint.z p * libm_sin theta
           /\ MPoint.z p'
              = MPoint.x p * libm_sin theta + MPoint.z p * libm_cos theta))
    (drop (MItGeometry.index it) (MItGeometry.points it))
    (drop (MItGeometry.index it)
       (MItGeometry.points
          (iter (deform (H := binary64) envelope angle block it err).2))).
Proof.
  intros Ha He. cbv zeta.
  rewrite (deform_success_points envelope angle block it err Ha He). simpl.
  rewrite drop_take_app by (rewrite length_map; reflexivity).
  apply Forall2_map_self. intros p. split.
  - apply twist_binary64_skip.
  - intros Hcond. rewrite twist_binary64_formula by exact Hcond.
    split; reflexivity.
Qed.

(** C2, as amended.  When the angle is [0] or [-0], the envelope is finite
    and the [y] of every point from the cursor on is finite, or when the
    envelope is [0] or [-0] and the product of the angle and [y] is finite
    for every point from the cursor on, the points after [deform] are the
    points before it. *)
Theorem binary64_deform_identity (angle envelope : MObject)
    (block : MDataBlock.t float) (it : MItGeometry.t float) (err : ostream) :
  let magnitude := MDataHandle.asDouble (MDataBlock.inputValue block angle).1 in
  let env := MDataHandle.asFloat (MDataBlock.inputValue block envelope).1 in
  ((magnitude =? 0) = true
   /\ is_finite env = true
   /\ Forall (fun pt => is_finite (MPoint.y pt) = true)
        (drop (MItGeometry.index it) (MItGeometry.points it)))
  \/ ((env =? 0) = true
      /\ Forall (fun pt => is_finite (magnitude * MPoint.y pt) = true)
           (drop (MItGeometry.index it) (MItGeometry.points it))) ->
  MItGeometry.points
    (iter (deform (H := binary64) envelope angle block it err).2)
  = MItGeometry.points it.
Proof.
  cbv zeta. intros Hz. apply deform_points_fixed.
  destruct Hz as [(Hm & He & Hy) | (He & Hp)].
  - eapply Forall_impl; [exact Hy|].
    intros pt Hpt. apply twist_binary64_angle_zero; assumption.
  - eapply Forall_impl; [exact Hp|].
    intros pt Hpt. apply twist_binary64_envelope_zero; assumption.
Qed.



(** X10.  A node whose angle still has the default that [initialize] gave
    the attribute does not move a finite geometry: when the read of the angle
    yields the default value of the attribute behind the handle [initialize]
    assigned to [angle], the envelope is finite and the [y] of every point
    from the cursor on is finite, the points after [deform] are the points
    before. *)
Theorem binary64_default_angle (outputGeom envelope : MObject)
    (dg : DG.t float) (block : MDataBlock.t float) (it : MItGeometry.t float)
    (err : ostream) (attr : DG.NumericAttribute float) :
  let angle := (initialize (H := binary64) outputGeom dg).1.2 in
  let dg' := (initialize (H := binary64) outputGeom dg).2 in
  DG.objects dg' !! angle = Some (DG.Numeric attr) ->
  MDataHandle.asDouble (MDataBlock.inputValue block angle).1
  = DG.defaultValue attr ->
  is_finite (MDataHandle.asFloat (MDataBlock.inputValue block envelope).1)
  = true ->
  Forall (fun pt => is_finite (MPoint.y pt) = true)
    (drop (MItGeometry.index it) (MItGeometry.points it)) ->
  MItGeometry.points
    (iter (deform (H := binary64) envelope angle block it err).2)
  = MItGeometry.points it.
Proof.
  cbv zeta. intros Hattr Hval He Hy.
  pose proof (initialize_registers_angle_object (H := binary64) outputGeom dg)
    as Hobj.
  rewrite Hobj in Hattr. injection Hattr as <-.
  apply deform_points_fixed.
  eapply Forall_impl; [exact Hy|].
  intros pt Hpt. apply twist_binary64_angle_zero; [|exact Hpt|exact He].
  rewrite Hval. reflexivity.
Qed.

(** For no [cos] and [sin] is [1 * cos - infinity * sin] equal to [1]: the
    second product is an infinity or the NaN, and so is the difference. *)
Lemma binary64_formula_not_one (c s : float) : 1 * c - infinity * s <> 1.
Proof.
  intros E. apply (f_equal Prim2SF) in E.
  rewrite sub_spec, (mul_spec infinity) in E.
  change (Prim2SF infinity) with (S754_infinity false) in E.
  change (Prim2SF 1) with (S754_finite false 4503599627370496 (-52)) in E.
  destruct (Prim2SF (1 * c)) as [sx|sx| |sx mx ex];
    destruct (Prim2SF s) as [sy|sy| |sy my ey];
    try destruct sx; try destruct sy; discriminate.
Qed.

End Binary64.

(** ** Where the claims as first stated fail *)

(** C1 as first stated, refuted.  The point [(1, 0, infinity)] has [y = 0]:
    the product is [0], the point is written back as read, and its [x] stays
    [1].  The formula asks for [1 * cos 0 - infinity * sin 0], which is an
    infinity or the NaN whatever [cos] and [sin] return. *)
Lemma deform_rotation_counterexample :
  ~ exists libm_cos libm_sin : float -> float,
      Forall2
        (fun p p' =>
           let theta := (2 * MPoint.y p * 1)%float in
           MPoint.x p'
           = (MPoint.x p * libm_cos theta - MPoint.z p * libm_sin theta)%float
           /\ MPoint.z p'
              = (MPoint.x p * libm_sin theta
                 + MPoint.z p * libm_cos theta)%float)
        [MPoint.mk 1 0 infinity 1]%float
        (MItGeometry.points
           (iter (deform (H := float_ops libm_cos libm_sin)
                    sample_envelope sample_angle
                    (sample_block 2%float 1%float kSuccess kSuccess)
                    (MItGeometry.mk [MPoint.mk 1 0 infinity 1]%float 0)
                    []).2)).
Proof.
  intros (c & s & Hall).
  rewrite (deform_success_points (H := float_ops c s)) in Hall
    by reflexivity.
  simpl in Hall.
  rewrite (twist_binary64_skip c s) in Hall by reflexivity.
  inversion Hall as [|p p' l l' [Hx _] _]; subst. simpl in Hx.
  symmetry in Hx. exact (binary64_formula_not_one _ _ Hx).
Qed.

(** C2 as first stated, refuted.  The envelope is [0]; the angle is
    [2^1023] and the point is [(1, 4, 3)], all finite.  The product of the
    angle and [y] overflows to the infinity, the infinity times [0] is the
    NaN, the NaN is not equal to [0.0], and the rotation turns [x] and [z]
    into the NaN. *)
Lemma deform_identity_counterexample :
  let block := sample_block 0x1p+1023%float 0%float kSuccess kSuccess in
  let after :=
    MItGeometry.points
      (iter (deform (H := float_ops libm_cos_table libm_sin_table)
               sample_envelope sample_angle block
               (MItGeometry.mk [MPoint.mk 1 4 3 1]%float 0) []).2) in
  MDataHandle.asFloat (MDataBlock.inputValue block sample_envelope).1
  = 0%float
  /\ after = [MPoint.mk nan 4 nan 1]%float
  /\ after <> [MPoint.mk 1 4 3 1]%float.
Proof.
  cbv zeta. split; [reflexivity|].
  assert (Hafter :
    MItGeometry.points
      (iter (deform (H := float_ops libm_cos_table libm_sin_table)
               sample_envelope sample_angle
               (sample_block 0x1p+1023%float 0%float kSuccess kSuccess)
               (MItGeometry.mk [MPoint.mk 1 4 3 1]%float 0) []).2)
    = [MPoint.mk nan 4 nan 1]%float) by (vm_compute; reflexivity).
  split; [exact Hafter|].
  rewrite Hafter. intros E.
  apply (f_equal (fun l => match l with
                           | p :: _ => is_nan (MPoint.x p)
                           | [] => false
                           end)) in E.
  vm_compute in E. discriminate.
Qed.



(** ** The theorems at the sample data *)

Lemma deform_pointwise_witness :
  deform (H := float_ops sample_libm sample_libm)
    sample_envelope sample_angle
    (sample_block 2%float 1%float kSuccess kSuccess)
    (MItGeometry.mk sample_points_binary64 0) []
  = (kSuccess,
     mkState
       (MItGeometry.mk
          (map (twist (H := float_ops sample_libm sample_libm)
                  2%float 1%float) sample_points_binary64) 3) []).
Proof.
  apply (deform_pointwise (H := float_ops sample_libm sample_libm)
           sample_envelope sample_angle
           (sample_block 2%float 1%float kSuccess kSuccess)
           (MItGeometry.mk sample_points_binary64 0) []); reflexivity.
Defined.

Lemma deform_error_atomic_witness :
  iter (deform (H := float_ops sample_libm sample_libm)
          sample_envelope sample_angle
          (sample_block 2%float 1%float kSuccess kInvalidParameter)
          (MItGeometry.mk sample_points_binary64 0) []).2
  = MItGeometry.mk sample_points_binary64 0.
Proof.
  apply (deform_error_atomic (H := float_ops sample_libm sample_libm)
           sample_envelope sample_angle
           (sample_block 2%float 1%float kSuccess kInvalidParameter)
           (MItGeometry.mk sample_points_binary64 0) []).
  right. simpl. discriminate.
Defined.

Lemma binary64_deform_rotation_witness :
  Forall2
    (fun p p' =>
       let theta := (2 * MPoint.y p * 1)%float in
       ((theta =? 0)%float = true -> p' = p)
       /\ ((theta =? 0)%float = false
           \/ formula_fixes libm_cos_table libm_sin_table 2%float 1%float p ->
           MPoint.x p'
           = (MPoint.x p * libm_cos_table theta
              - MPoint.z p * libm_sin_table theta)%float
           /\ MPoint.z p'
              = (MPoint.x p * libm_sin_table theta
                 + MPoint.z p * libm_cos_table theta)%float))
    sample_points_binary64
    (MItGeometry.points
       (iter (deform (H := float_ops libm_cos_table libm_sin_table)
                sample_envelope sample_angle
                (sample_block 2%float 1%float kSuccess kSuccess)
                (MItGeometry.mk sample_points_binary64 0) []).2)).
Proof.
  apply (binary64_deform_rotation libm_cos_table libm_sin_table
           sample_angle sample_envelope
           (sample_block 2%float 1%float kSuccess kSuccess)
           (MItGeometry.mk sample_points_binary64 0) []); reflexivity.
Defined.

Lemma binary64_deform_identity_witness :
  MItGeometry.points
    (iter (deform (H := float_ops libm_cos_table libm_sin_table)
             sample_envelope sample_angle
             (sample_block 0%float 1%float kSuccess kSuccess)
             (MItGeometry.mk sample_points_binary64 0) []).2)
  = sample_points_binary64.
Proof.
  apply (binary64_deform_identity libm_cos_table libm_sin_table
           sample_angle sample_envelope
           (sample_block 0%float 1%float kSuccess kSuccess)
           (MItGeometry.mk sample_points_binary64 0) []).
  left. split; [reflexivity|]. split; [reflexivity|]. repeat constructor.
Defined.



(** ** The further properties at the sample data *)

Lemma deform_exhausts_iterator_witness :
  MItGeometry.isDone
    (iter (deform (H := float_ops sample_libm sample_libm)
             sample_envelope sample_angle
             (sample_block 2%float 1%float kSuccess kSuccess)
             (MItGeometry.mk sample_points_binary64 0) []).2) = true.
Proof.
  apply (deform_exhausts_iterator (H := float_ops sample_libm sample_libm)
           sample_envelope sample_angle
           (sample_block 2%float 1%float kSuccess kSuccess)
           (MItGeometry.mk sample_points_binary64 0) []); reflexivity.
Defined.

Lemma deform_done_iterator_witness :
  let r := deform (H := float_ops sample_libm sample_libm)
             sample_envelope sample_angle
             (sample_block 2%float 1%float kSuccess kNotFound)
             (MItGeometry.mk (@nil (MPoint.t float)) 0) [] in
  iter r.2 = MItGeometry.mk [] 0
  /\ (r.1 = kSuccess <-> kSuccess = kSuccess /\ kNotFound = kSuccess).
Proof.
  apply (deform_done_iterator (H := float_ops sample_libm sample_libm)
           sample_envelope sample_angle
           (sample_block 2%float 1%float kSuccess kNotFound)
           (MItGeometry.mk (@nil (MPoint.t float)) 0) []); reflexivity.
Defined.

Lemma deform_again_witness :
  let it1 :=
    iter (deform (H := float_ops sample_libm sample_libm)
            sample_envelope sample_angle
            (sample_block 2%float 1%float kSuccess kSuccess)
            (MItGeometry.mk sample_points_binary64 0) []).2 in
  iter (deform (H := float_ops sample_libm sample_libm)
          sample_envelope sample_angle
          (sample_block 5%float 1%float kSuccess kSuccess) it1 []).2 = it1.
Proof.
  apply (deform_again (H := float_ops sample_libm sample_libm)
           sample_envelope sample_angle
           (sample_block 2%float 1%float kSuccess kSuccess)
           (sample_block 5%float 1%float kSuccess kSuccess)
           (MItGeometry.mk sample_points_binary64 0) [] []); reflexivity.
Defined.

Lemma binary64_default_angle_witness :
  MItGeometry.points
    (iter (deform (H := float_ops sample_libm sample_libm)
             sample_envelope 0
             (sample_block 0%float 1%float kSuccess kSuccess)
             (MItGeometry.mk sample_points_binary64 0) []).2)
  = sample_points_binary64.
Proof.
  apply (binary64_default_angle sample_libm sample_libm 2 sample_envelope
           (DG.mk [] [] [])
           (sample_block 0%float 1%float kSuccess kSuccess)
           (MItGeometry.mk sample_points_binary64 0) []
           (DG.mkAttr "angle" "fa" MFnNumericData.kDouble 0%float true));
    [reflexivity | reflexivity | reflexivity | repeat constructor].
Defined.

Lemma binary64_zero_angle_identity_witness :
  MItGeometry.points
    (iter (deform (H := float_ops sample_libm sample_libm)
             sample_envelope sample_angle
             (sample_block (-0)%float 1%float kSuccess kSuccess)
             (MItGeometry.mk sample_points_binary64 0) []).2)
  = sample_points_binary64.
Proof.
  apply (binary64_zero_angle_identity sample_libm sample_libm
           sample_angle sample_envelope
           (sample_block (-0)%float 1%float kSuccess kSuccess)
           (MItGeometry.mk sample_points_binary64 0) []);
    [reflexivity | reflexivity | repeat constructor].
Defined.

Lemma binary64_zero_envelope_identity_witness :
  MItGeometry.points
    (iter (deform (H := float_ops sample_libm sample_libm)
             sample_envelope sample_angle
             (sample_block 5%float 0%float kSuccess kSuccess)
             (MItGeometry.mk sample_points_binary64 0) []).2)
  = sample_points_binary64.
Proof.
  apply (binary64_zero_envelope_identity sample_libm sample_libm
           sample_angle sample_envelope
           (sample_block 5%float 0%float kSuccess kSuccess)
           (MItGeometry.mk sample_points_binary64 0) []);
    [reflexivity | repeat constructor].
Defined.

Lemma binary64_zero_y_identity_witness :
  MItGeometry.points
    (iter (deform (H := float_ops sample_libm sample_libm)
             sample_envelope sample_angle
             (sample_block 5%float 1%float kSuccess kSuccess)
             (MItGeometry.mk sample_flat_points_binary64 0) []).2)
  = sample_flat_points_binary64.
Proof.
  apply (binary64_zero_y_identity sample_libm sample_libm
           sample_angle sample_envelope
           (sample_block 5%float 1%float kSuccess kSuccess)
           (MItGeometry.mk sample_flat_points_binary64 0) []);
    [reflexivity | reflexivity | repeat constructor].
Defined.

Lemma binary64_nan_takes_rotation_witness :
  twist (H := float_ops sample_libm sample_libm) 0%float 1%float
    (MPoint.mk 1 infinity 3 1)%float
  = (MPoint.mk nan infinity nan 1)%float.
Proof.
  apply (binary64_nan_takes_rotation sample_libm sample_libm 0%float 1%float
           (MPoint.mk 1 infinity 3 1)%float); reflexivity.
Defined.

End yTwist.
